(** * wsidicomizer.dataset: specimen and image-type records

    A shallow embedding of [wsidicomizer/dataset.py]: the image-type
    derivation [get_image_type], the per-sample builder
    [create_simple_sample] and the slide-level aggregation
    [create_simple_specimen_module], followed by the properties of the
    specification that concern them.

    Python exceptions are outcomes [Raises e]; the injected UID generator
    is a state transformer whose state, together with the trace of the
    UIDs it handed out, is threaded through the builders. *)

From stdpp Require Import gmap strings list pretty.
From Stdlib Require Import ZArith Ascii.

Open Scope string_scope.
Open Scope list_scope.
Open Scope Z_scope.

(** ** Values *)

(** pydicom's [Code]: (value, scheme designator, meaning). *)
Record Code : Type := mkCode {
  code_value : string;
  scheme_designator : string;
  code_meaning : string
}.

(** pydicom's [UID] is a [str] subclass. *)
Definition Uid : Type := string.

(** The concept-code classes imported from [wsidicom.conceptcode]; each
    one names a category with its own vocabulary. *)
Inductive CidConceptCode : Type :=
| SpecimenEmbeddingMediaCode
| SpecimenFixativesCode
| SpecimenPreparationProcedureCode
| SpecimenStainsCode.

(** The exception a failed resolution raises: the category and the string
    that is not in its vocabulary. *)
Inductive Error : Type :=
| UnknownCodeError (category : CidConceptCode) (meaning : string).

Inductive Outcome (A : Type) : Type :=
| Returns (a : A)
| Raises (e : Error).
Arguments Returns {A} a.
Arguments Raises {A} e.

(** The highdicom content classes are used through their constructors
    only; each is kept as the record of the arguments its constructor is
    given. *)

(** highdicom's [SpecimenStaining(substances)]. *)
Record SpecimenStaining : Type := mkSpecimenStaining {
  substances : list Code
}.

(** highdicom's [SpecimenPreparationStep], by the keyword arguments
    [create_simple_sample] passes to it. *)
Record SpecimenPreparationStep : Type := mkSpecimenPreparationStep {
  step_specimen_id : string;
  processing_type : Code;
  processing_procedure : SpecimenStaining;
  embedding_medium : option Code;
  fixative : option Code
}.

(** highdicom's [SpecimenDescription]; [specimen_preparation_steps] is
    [None] when the caller passes no list. *)
Record SpecimenDescription : Type := mkSpecimenDescription {
  specimen_id : string;
  specimen_uid : Uid;
  specimen_preparation_steps : option (list SpecimenPreparationStep)
}.

(** The preparation steps a description carries (none when the list is
    absent). *)
Definition preparation_steps (d : SpecimenDescription)
  : list SpecimenPreparationStep :=
  default [] (specimen_preparation_steps d).

(** pydicom datasets: a plain [Dataset()] is a store of elements by
    keyword; a [SpecimenDescription] is a dataset too (a subclass). An
    element holds a text value, several text values ([MultiValue]) or a
    [DicomSequence] of datasets. *)
#[warnings="-register-all"]
Inductive Dataset : Type :=
| Attrs (elems : gmap string Element)
| Specimen (d : SpecimenDescription)
with Element : Type :=
| Str (value : string)
| MultiValue (values : list string)
| DicomSequence (items : list Dataset).

(** [Dataset()] and [dataset.keyword = value] on a plain dataset. *)
Definition new_dataset : gmap string Element := ∅.

Definition setattr (keyword : string) (value : Element)
    (dataset : gmap string Element) : gmap string Element :=
  <[keyword := value]> dataset.

(** The value separator of text elements. *)
Definition backslash : Ascii.ascii := "092"%char.

(** Whether the value contains a backslash. *)
Fixpoint has_backslash (value : string) : bool :=
  match value with
  | EmptyString => false
  | String c rest => Ascii.eqb c backslash || has_backslash rest
  end.

(** The value split at its backslashes (Python [str.split]): the parts
    between them, empty parts included. *)
Fixpoint split_backslash (value : string) : list string :=
  match value with
  | EmptyString => [EmptyString]
  | String c rest =>
      if Ascii.eqb c backslash then EmptyString :: split_backslash rest
      else
        match split_backslash rest with
        | part :: parts => String c part :: parts
        | [] => [String c EmptyString]
        end
  end.

(** The parts put together again with a backslash between them (Python
    [str.join]). *)
Fixpoint join_backslash (parts : list string) : string :=
  match parts with
  | [] => EmptyString
  | part :: parts' =>
      match parts' with
      | [] => part
      | _ :: _ => part +:+ String backslash (join_backslash parts')
      end
  end.

(** The element pydicom stores when a [str] is assigned to a text
    attribute: a value that contains a backslash is split into its parts
    and stored as several values, any other value is stored as it is. *)
Definition assign_text (value : string) : Element :=
  if has_backslash value then MultiValue (split_backslash value)
  else Str value.

(** What a run can observe of an injected UID generator with states in
    [G]: its state and the UIDs it has returned so far, oldest first. *)
Record World (G : Type) : Type := mkWorld {
  gen_state : G;
  generated : list Uid
}.
Arguments mkWorld {G} gen_state generated.
Arguments gen_state {G} w.
Arguments generated {G} w.

(** ** get_image_type *)

Definition get_image_type (image_flavor : string) (level_index : Z)
  : list string :=
  let resampled :=
    if String.eqb image_flavor "VOLUME" && Z.eqb level_index 0
    then "NONE"
    else "RESAMPLED" in
  ["ORGINAL"; "PRIMARY"; image_flavor; resampled].

(** ** A vocabulary and a generator to run the builders on *)

Definition sample_embedding_media : gmap string Code :=
  list_to_map [("Paraffin wax", mkCode "311731000" "SCT" "Paraffin wax")].

Definition sample_fixatives : gmap string Code :=
  list_to_map
    [("Neutral Buffered Formalin",
      mkCode "434162003" "SCT" "Neutral Buffered Formalin")].

Definition sample_procedures : gmap string Code :=
  list_to_map [("Staining", mkCode "127790008" "SCT" "Staining")].

Definition sample_stains : gmap string Code :=
  list_to_map
    [("hematoxylin stain", mkCode "12710003" "SCT" "hematoxylin stain");
     ("water soluble eosin stain",
      mkCode "36879007" "SCT" "water soluble eosin stain")].

Definition sample_cid (cls : CidConceptCode) (meaning : string)
  : option Code :=
  match cls with
  | SpecimenEmbeddingMediaCode => sample_embedding_media !! meaning
  | SpecimenFixativesCode => sample_fixatives !! meaning
  | SpecimenPreparationProcedureCode => sample_procedures !! meaning
  | SpecimenStainsCode => sample_stains !! meaning
  end.

(** A stub generator: its state counts the calls made so far. *)
Definition counting_uid_generator (n : nat) : Uid * nat :=
  ("2.25." +:+ pretty n, S n).

(** The world before the stub has generated any UID. *)
Definition initial_world : World nat := mkWorld 0%nat [].

(** ** Datasets of the base, device and optical path modules *)

(** The elements the remaining builders store: an element as above, a
    multi-valued text element (a Python list of strings), a tag named by
    its keyword ([pydicom.tag.Tag(keyword)]), and a sequence of datasets of
    such elements. *)
#[warnings="-register-all"]
Inductive DataElement : Type :=
| Plain (element : Element)
| Strings (values : list string)
| Tag (keyword : string)
| Items (datasets : list (gmap string DataElement)).

(** A text-valued element; UIDs are stored as text. *)
Definition text (value : string) : DataElement := Plain (Str value).

(** A [str] assigned to a text attribute, see [assign_text]. *)
Definition assign (value : string) : DataElement := Plain (assign_text value).

(** [dataset.update(other)]: every element of [other] is stored in
    [dataset], replacing an element of the same keyword. *)
Definition update (other dataset : gmap string DataElement)
  : gmap string DataElement :=
  other ∪ dataset.

(** A dataset of plain elements, as a dataset of the wider kind. *)
Definition as_dataset (dataset : gmap string Element)
  : gmap string DataElement :=
  Plain <$> dataset.

Definition create_device_module
    (manufacturer model_name serial_number : option string)
    (software_versions : option (list string)) : gmap string DataElement :=
  let dataset : gmap string DataElement := ∅ in
  let properties :=
    [("Manufacturer", assign <$> manufacturer);
     ("ManufacturerModelName", assign <$> model_name);
     ("DeviceSerialNumber", assign <$> serial_number);
     ("SoftwareVersions", Strings <$> software_versions)] in
  foldl
    (λ dataset '(name, value),
       match value with
       | Some value => <[name := value]> dataset
       | None => dataset
       end)
    dataset properties.

Definition create_generic_optical_path_module : gmap string Element :=
  let dataset := new_dataset in
  let optical_path_sequence :=
    setattr "OpticalPathIdentifier" (Str "0") new_dataset in
  let illumination_type_code_sequence :=
    setattr "CodeMeaning" (Str "Brightfield illumination")
      (setattr "CodingSchemeDesignator" (Str "DCM")
         (setattr "CodeValue" (Str "111744") new_dataset)) in
  let optical_path_sequence :=
    setattr "IlluminationTypeCodeSequence"
      (DicomSequence [Attrs illumination_type_code_sequence])
      optical_path_sequence in
  let illumination_color_code_sequence :=
    setattr "CodeMeaning" (Str "Full Spectrum")
      (setattr "CodingSchemeDesignator" (Str "SRT")
         (setattr "CodeValue" (Str "R-102C0") new_dataset)) in
  let optical_path_sequence :=
    setattr "IlluminationColorCodeSequence"
      (DicomSequence [Attrs illumination_color_code_sequence])
      optical_path_sequence in
  setattr "OpticalPathSequence"
    (DicomSequence [Attrs optical_path_sequence]) dataset.

(** ** The builders *)

Section Builders.

(** The controlled vocabularies: for every concept-code class, the code
    registered for a meaning, if any. They are external, read-only
    tables. *)
Variable cid : CidConceptCode → string → option Code.

(** The injected [uid_generator]: a zero-argument callable with a state
    of its own, returning one UID per call. *)
Variable G : Type.
Variable uid_generator : G → Uid * G.

(** Computations that may raise and may call the generator. *)
Definition M (A : Type) : Type := World G → Outcome A * World G.

#[local] Instance M_ret : MRet M := λ A a w, (Returns a, w).

#[local] Instance M_bind : MBind M := λ A B f m w,
  match m w with
  | (Returns a, w') => f a w'
  | (Raises e, w') => (Raises e, w')
  end.

Definition raise {A : Type} (e : Error) : M A := λ w, (Raises e, w).

(** [uid_generator()] *)
Definition call_uid_generator : M Uid := λ w,
  let '(uid, g) := uid_generator (gen_state w) in
  (Returns uid, {| gen_state := g; generated := generated w ++ [uid] |}).

(** Modelled from the spec: the coded-concept resolver [Cls(meaning).code]
    of [wsidicom.conceptcode], which is not part of this module. It
    returns the code registered for [meaning] in the vocabulary of the
    class and fails with an [UnknownCodeError] for that string when there
    is none; it never looks into another category. *)
Definition concept_code (cls : CidConceptCode) (meaning : string) : M Code :=
  match cid cls meaning with
  | Some code => mret code
  | None => raise (UnknownCodeError cls meaning)
  end.

(** [Cls(x).code if x is not None else None] *)
Definition optional_code (cls : CidConceptCode) (meaning : option string)
  : M (option Code) :=
  match meaning with
  | Some m => code ← concept_code cls m; mret (Some code)
  | None => mret None
  end.

(** The list comprehension [[f(x) for x in xs]]: the elements are visited
    in order and the first exception ends the loop. *)
Fixpoint comprehension {A B : Type} (f : A → M B) (xs : list A)
  : M (list B) :=
  match xs with
  | [] => mret []
  | x :: xs' => y ← f x; ys ← comprehension f xs'; mret (y :: ys)
  end.

Definition create_simple_sample
    (sample_id : string)
    (embedding_medium : option string)
    (fixative : option string)
    (stainings : option (list string)) : M SpecimenDescription :=
  embedding_medium_code ←
    optional_code SpecimenEmbeddingMediaCode embedding_medium;
  fixative_code ← optional_code SpecimenFixativesCode fixative;
  sample_preparation_steps ←
    match stainings with
    | Some stainings =>
        processing_type ←
          concept_code SpecimenPreparationProcedureCode "Staining";
        codes ← comprehension (concept_code SpecimenStainsCode) stainings;
        let processing_procedure := mkSpecimenStaining codes in
        let sample_preparation_step :=
          mkSpecimenPreparationStep sample_id processing_type
            processing_procedure embedding_medium_code fixative_code in
        mret (Some [sample_preparation_step])
    | None => mret None
    end;
  uid ← call_uid_generator;
  mret (mkSpecimenDescription sample_id uid sample_preparation_steps).

Definition create_simple_specimen_module
    (slide_id : string) (samples : list Dataset) : gmap string Element :=
  let dataset := new_dataset in
  let dataset :=
    setattr "ContainerIdentifier" (assign_text slide_id) dataset in
  let container_type_code_sequence :=
    setattr "CodeMeaning" (Str "Slide")
      (setattr "CodingSchemeDesignator" (Str "SCT")
         (setattr "CodeValue" (Str "258661006") new_dataset)) in
  let dataset :=
    setattr "ContainerTypeCodeSequence"
      (DicomSequence [Attrs container_type_code_sequence]) dataset in
  let container_component_sequence :=
    setattr "ContainerComponentMaterial" (Str "GLASS") new_dataset in
  let container_component_type_code_sequence :=
    setattr "CodeMeaning" (Str "Microscope slide coverslip")
      (setattr "CodingSchemeDesignator" (Str "SCT")
         (setattr "CodeValue" (Str "433472003") new_dataset)) in
  let container_component_sequence :=
    setattr "ContainerComponentTypeCodeSequence"
      (DicomSequence [Attrs container_component_type_code_sequence])
      container_component_sequence in
  let dataset :=
    setattr "ContainerComponentSequence"
      (DicomSequence [Attrs container_component_sequence]) dataset in
  let specimen_description_sequence := DicomSequence samples in
  setattr "SpecimenDescriptionSequence" specimen_description_sequence
    dataset.

(** A supplied optional string is in the vocabulary of its class. *)
Definition registered (cls : CidConceptCode) (meaning : option string)
  : Prop :=
  match meaning with
  | Some m => is_Some (cid cls m)
  | None => True
  end.

(** The UID the next call of the generator returns, and the world after
    that single call. *)
Definition next_uid (w : World G) : Uid := (uid_generator (gen_state w)).1.

Definition after_call (w : World G) : World G :=
  {| gen_state := (uid_generator (gen_state w)).2;
     generated := generated w ++ [next_uid w] |}.

(** The step [create_simple_sample] assembles from resolved codes. *)
Definition staining_step (sample_id : string) (em fx : option string)
    (processing_type : Code) (codes : list Code)
  : SpecimenPreparationStep :=
  mkSpecimenPreparationStep sample_id processing_type
    (mkSpecimenStaining codes)
    (em ≫= cid SpecimenEmbeddingMediaCode)
    (fx ≫= cid SpecimenFixativesCode).

(** The world after [n] consecutive calls of the generator. *)
Definition after_calls (n : nat) (w : World G) : World G :=
  Nat.iter n after_call w.

Definition create_wsi_dataset : M (gmap string DataElement) :=
  let dataset : gmap string DataElement := ∅ in
  study_instance_uid ← call_uid_generator;
  let dataset := <["StudyInstanceUID" := text study_instance_uid]> dataset in
  series_instance_uid ← call_uid_generator;
  let dataset :=
    <["SeriesInstanceUID" := text series_instance_uid]> dataset in
  frame_of_reference_uid ← call_uid_generator;
  let dataset :=
    <["FrameOfReferenceUID" := text frame_of_reference_uid]> dataset in
  let dataset := <["Modality" := text "SM"]> dataset in
  let dataset :=
    <["SOPClassUID" := text "1.2.840.10008.5.1.4.1.1.77.1.6"]> dataset in
  dimension_organization_uid ← call_uid_generator;
  let dimension_organization_sequence : gmap string DataElement :=
    <["DimensionOrganizationUID" := text dimension_organization_uid]> ∅ in
  let dataset :=
    <["DimensionOrganizationSequence" :=
        Items [dimension_organization_sequence]]> dataset in
  let dimension_index_sequence : gmap string DataElement :=
    <["DimensionIndexPointer" := Tag "PlanePositionSlideSequence"]>
      (<["DimensionOrganizationUID" := text dimension_organization_uid]> ∅) in
  let dataset :=
    <["DimensionIndexSequence" := Items [dimension_index_sequence]]>
      dataset in
  let dataset := <["BurnedInAnnotation" := text "NO"]> dataset in
  let dataset := <["SpecimenLabelInImage" := text "NO"]> dataset in
  let dataset := <["VolumetricProperties" := text "VOLUME"]> dataset in
  mret dataset.

Definition create_test_base_dataset : M (gmap string DataElement) :=
  dataset ← create_wsi_dataset;
  let dataset :=
    update
      (create_device_module (Some "Scanner manufacturer")
         (Some "Scanner model name") (Some "Scanner serial number")
         (Some ["Scanner software versions"]))
      dataset in
  sample ← create_simple_sample "sample id" None None None;
  let dataset :=
    update
      (as_dataset (create_simple_specimen_module "slide id" [Specimen sample]))
      dataset in
  let dataset :=
    update (as_dataset create_generic_optical_path_module) dataset in
  mret dataset.

(** ** Running the computations *)

Lemma mret_run {A : Type} (a : A) (w : World G) :
  (mret a : M A) w = (Returns a, w).
Proof. reflexivity. Qed.

Lemma mbind_returns {A B : Type} (m : M A) (f : A → M B) w a w' :
  m w = (Returns a, w') → (m ≫= f) w = f a w'.
Proof. intros Hm. unfold mbind, M_bind. by rewrite Hm. Qed.

Lemma mbind_raises {A B : Type} (m : M A) (f : A → M B) w e w' :
  m w = (Raises e, w') → (m ≫= f) w = (Raises e, w').
Proof. intros Hm. unfold mbind, M_bind. by rewrite Hm. Qed.

Lemma mbind_inv_returns {A B : Type} (m : M A) (f : A → M B) w b w2 :
  (m ≫= f) w = (Returns b, w2) →
  ∃ a w1, m w = (Returns a, w1) ∧ f a w1 = (Returns b, w2).
Proof.
  unfold mbind, M_bind. destruct (m w) as [[a|e] w1]; [eauto | done].
Qed.

Lemma concept_code_run cls meaning w :
  concept_code cls meaning w =
  (match cid cls meaning with
   | Some code => Returns code
   | None => Raises (UnknownCodeError cls meaning)
   end, w).
Proof. unfold concept_code. by destruct (cid cls meaning). Qed.

Lemma optional_code_returns cls meaning w :
  registered cls meaning →
  optional_code cls meaning w = (Returns (meaning ≫= cid cls), w).
Proof.
  destruct meaning as [m|]; simpl; [|done].
  intros [code Hcode].
  erewrite mbind_returns; [|by rewrite concept_code_run, Hcode].
  by rewrite Hcode.
Qed.

Lemma optional_code_raises cls m w :
  cid cls m = None →
  optional_code cls (Some m) w = (Raises (UnknownCodeError cls m), w).
Proof.
  intros Hm. simpl. apply mbind_raises. by rewrite concept_code_run, Hm.
Qed.

Lemma optional_code_inv cls meaning w code w' :
  optional_code cls meaning w = (Returns code, w') →
  registered cls meaning ∧ code = meaning ≫= cid cls ∧ w' = w.
Proof.
  destruct meaning as [m|]; simpl.
  - intros (c & w1 & Hc & Hret)%mbind_inv_returns.
    rewrite concept_code_run in Hc. rewrite mret_run in Hret.
    destruct (cid cls m) as [c'|] eqn:Hm; simplify_eq. eauto.
  - rewrite mret_run. intros; simplify_eq. done.
Qed.

Lemma optional_code_world cls meaning w r w' :
  optional_code cls meaning w = (r, w') → w' = w.
Proof.
  destruct meaning as [m|]; simpl; [|rewrite mret_run; congruence].
  unfold mbind, M_bind. rewrite concept_code_run.
  destruct (cid cls m); [rewrite mret_run|]; congruence.
Qed.

(** The comprehension over a list of registered strings returns their
    codes, one per string and in the order of the list. *)
Lemma comprehension_returns cls xs codes w :
  Forall2 (λ x code, cid cls x = Some code) xs codes →
  comprehension (concept_code cls) xs w = (Returns codes, w).
Proof.
  intros Hall. induction Hall as [|x code xs codes Hx _ IH]; [done|].
  simpl. erewrite mbind_returns; [|by rewrite concept_code_run, Hx].
  erewrite mbind_returns; [|exact IH]. done.
Qed.

(** It stops at the first string that is not registered. *)
Lemma comprehension_raises cls pre x post w :
  Forall (λ y, is_Some (cid cls y)) pre →
  cid cls x = None →
  comprehension (concept_code cls) (pre ++ x :: post) w =
  (Raises (UnknownCodeError cls x), w).
Proof.
  intros Hpre Hx. induction Hpre as [|y pre [code Hy] _ IH]; simpl.
  - apply mbind_raises. by rewrite concept_code_run, Hx.
  - erewrite mbind_returns; [|by rewrite concept_code_run, Hy].
    by apply mbind_raises.
Qed.

Lemma comprehension_inv cls xs codes w w' :
  comprehension (concept_code cls) xs w = (Returns codes, w') →
  Forall2 (λ x code, cid cls x = Some code) xs codes ∧ w' = w.
Proof.
  revert codes. induction xs as [|x xs IH]; intros codes; simpl.
  - rewrite mret_run. intros; simplify_eq. by split; [constructor|].
  - intros (c & w1 & Hc & Hrest)%mbind_inv_returns.
    rewrite concept_code_run in Hc.
    destruct (cid cls x) as [c'|] eqn:Hx; simplify_eq.
    apply mbind_inv_returns in Hrest as (cs & w2 & Hcs & Hret).
    rewrite mret_run in Hret. simplify_eq.
    destruct (IH _ Hcs) as [Hall ->]. by split; [constructor|].
Qed.

(** Every list either resolves as a whole or splits at its first
    unregistered string. *)
Lemma first_unregistered cls (xs : list string) :
  (∃ codes, Forall2 (λ x code, cid cls x = Some code) xs codes) ∨
  (∃ pre x post, xs = pre ++ x :: post ∧
     Forall (λ y, is_Some (cid cls y)) pre ∧ cid cls x = None).
Proof.
  induction xs as [|x xs IH].
  - left. exists []. constructor.
  - destruct (cid cls x) as [c|] eqn:Hx.
    + destruct IH as [[codes Hall] | (pre & y & post & -> & Hpre & Hy)].
      * left. exists (c :: codes). by constructor.
      * right. exists (x :: pre), y, post. split_and!; [done| |done].
        constructor; [by exists c | done].
    + right. exists [], x, xs. by split_and!.
Qed.

Lemma call_uid_generator_run w :
  call_uid_generator w = (Returns (next_uid w), after_call w).
Proof.
  unfold call_uid_generator, after_call, next_uid.
  by destruct (uid_generator (gen_state w)).
Qed.

Lemma create_simple_sample_absent sample_id em fx w :
  registered SpecimenEmbeddingMediaCode em →
  registered SpecimenFixativesCode fx →
  create_simple_sample sample_id em fx None w =
  (Returns (mkSpecimenDescription sample_id (next_uid w) None),
   after_call w).
Proof.
  intros Hem Hfx. unfold create_simple_sample.
  erewrite mbind_returns; [|by apply optional_code_returns].
  erewrite mbind_returns; [|by apply optional_code_returns].
  erewrite mbind_returns; [|apply mret_run].
  erewrite mbind_returns; [|apply call_uid_generator_run].
  done.
Qed.

Lemma create_simple_sample_stained sample_id em fx stainings pt codes w :
  registered SpecimenEmbeddingMediaCode em →
  registered SpecimenFixativesCode fx →
  cid SpecimenPreparationProcedureCode "Staining" = Some pt →
  Forall2 (λ x code, cid SpecimenStainsCode x = Some code) stainings codes →
  create_simple_sample sample_id em fx (Some stainings) w =
  (Returns (mkSpecimenDescription sample_id (next_uid w)
              (Some [staining_step sample_id em fx pt codes])),
   after_call w).
Proof.
  intros Hem Hfx Hpt Hcodes. unfold create_simple_sample.
  erewrite mbind_returns; [|by apply optional_code_returns].
  erewrite mbind_returns; [|by apply optional_code_returns].
  erewrite mbind_returns; last first.
  { erewrite mbind_returns; [|by rewrite concept_code_run, Hpt].
    erewrite mbind_returns; [|by apply comprehension_returns].
    apply mret_run. }
  erewrite mbind_returns; [|apply call_uid_generator_run].
  done.
Qed.

(** What a returned description says about the call that built it. *)
Lemma create_simple_sample_inv sample_id em fx stainings w d w' :
  create_simple_sample sample_id em fx stainings w = (Returns d, w') →
  registered SpecimenEmbeddingMediaCode em ∧
  registered SpecimenFixativesCode fx ∧
  w' = after_call w ∧
  specimen_id d = sample_id ∧
  specimen_uid d = next_uid w ∧
  match stainings with
  | None => specimen_preparation_steps d = None
  | Some xs =>
      ∃ pt codes,
        cid SpecimenPreparationProcedureCode "Staining" = Some pt ∧
        Forall2 (λ x code, cid SpecimenStainsCode x = Some code) xs codes ∧
        specimen_preparation_steps d =
          Some [staining_step sample_id em fx pt codes]
  end.
Proof.
  unfold create_simple_sample.
  intros (emc & w1 & Hem & Hrun)%mbind_inv_returns.
  apply optional_code_inv in Hem as (Hem & -> & ->).
  apply mbind_inv_returns in Hrun as (fxc & w1 & Hfx & Hrun).
  apply optional_code_inv in Hfx as (Hfx & -> & ->).
  apply mbind_inv_returns in Hrun as (steps & w1 & Hsteps & Hrun).
  apply mbind_inv_returns in Hrun as (uid & w2 & Huid & Hret).
  rewrite call_uid_generator_run in Huid. rewrite mret_run in Hret.
  destruct stainings as [xs|].
  - apply mbind_inv_returns in Hsteps as (pt & w3 & Hpt & Hsteps).
    rewrite concept_code_run in Hpt.
    destruct (cid SpecimenPreparationProcedureCode "Staining")
      as [pt'|] eqn:Hstaining; simplify_eq.
    apply mbind_inv_returns in Hsteps as (codes & w4 & Hcodes & Hsteps).
    apply comprehension_inv in Hcodes as [Hcodes ->].
    rewrite mret_run in Hsteps. simplify_eq. simpl.
    split_and!; try done. by exists pt, codes.
  - rewrite mret_run in Hsteps. simplify_eq. simpl. by split_and!.
Qed.

(** A call that raises leaves the generator alone. *)
Lemma create_simple_sample_raises_world sample_id em fx stainings w e w' :
  create_simple_sample sample_id em fx stainings w = (Raises e, w') →
  w' = w.
Proof.
  unfold create_simple_sample, mbind, M_bind.
  destruct (optional_code SpecimenEmbeddingMediaCode em w)
    as [[emc|e1] w1] eqn:Hem; apply optional_code_world in Hem as ->;
    [|congruence].
  destruct (optional_code SpecimenFixativesCode fx w)
    as [[fxc|e2] w2] eqn:Hfx; apply optional_code_world in Hfx as ->;
    [|congruence].
  destruct stainings as [xs|].
  - rewrite concept_code_run.
    destruct (cid SpecimenPreparationProcedureCode "Staining");
      [|congruence].
    destruct (first_unregistered SpecimenStainsCode xs)
      as [[codes Hall] | (pre & x & post & -> & Hpre & Hx)].
    + rewrite (comprehension_returns _ _ _ _ Hall), !mret_run.
      rewrite call_uid_generator_run, mret_run. congruence.
    + rewrite (comprehension_raises _ _ _ _ _ Hpre Hx). congruence.
  - rewrite !mret_run, call_uid_generator_run, mret_run. congruence.
Qed.

(** ** create_simple_sample: the preparation step *)

(** C1 (as amended): when the stainings list is absent, no Preparation Step
    is produced: whatever the embedding medium and the fixative are, a
    Specimen Description that the call returns has no Preparation Step, and
    the call returns one whenever the embedding medium and the fixative, if
    supplied, are registered. *)
Theorem create_simple_sample_absent_stainings_no_step sample_id em fx w :
  (∀ d w',
     create_simple_sample sample_id em fx None w = (Returns d, w') →
     specimen_preparation_steps d = None ∧ preparation_steps d = []) ∧
  (registered SpecimenEmbeddingMediaCode em →
   registered SpecimenFixativesCode fx →
   ∃ d w', create_simple_sample sample_id em fx None w = (Returns d, w')).
Proof.
  split.
  - intros d w' Hrun.
    apply create_simple_sample_inv in Hrun as (_ & _ & _ & _ & _ & Hsteps).
    unfold preparation_steps. by rewrite Hsteps.
  - intros Hem Hfx. eexists _, _. by apply create_simple_sample_absent.
Qed.

Lemma registered_not_None cls m :
  registered cls (Some m) → cid cls m = None → False.
Proof. intros [c Hc] Hm. congruence. Qed.

Lemma create_simple_sample_raises_staining
    sample_id em fx pt pre x post w :
  registered SpecimenEmbeddingMediaCode em →
  registered SpecimenFixativesCode fx →
  cid SpecimenPreparationProcedureCode "Staining" = Some pt →
  Forall (λ y, is_Some (cid SpecimenStainsCode y)) pre →
  cid SpecimenStainsCode x = None →
  create_simple_sample sample_id em fx (Some (pre ++ x :: post)) w =
    (Raises (UnknownCodeError SpecimenStainsCode x), w).
Proof.
  intros Hem Hfx Hpt Hpre Hx. unfold create_simple_sample.
  erewrite mbind_returns; [|by apply optional_code_returns].
  erewrite mbind_returns; [|by apply optional_code_returns].
  apply mbind_raises.
  erewrite mbind_returns; [|by rewrite concept_code_run, Hpt].
  apply mbind_raises. by apply comprehension_raises.
Qed.

(** C2 (as amended): a call whose stainings list contains an unregistered
    string raises an [UnknownCodeError] during resolution: no record is
    returned and the generator is not called. The error names the first
    string that fails to resolve, in the order embedding medium, fixative,
    the procedure "Staining", stainings in list order: an unregistered
    embedding medium; else an unregistered fixative; else "Staining" when
    it is not a registered procedure; else the first unregistered string
    of the stainings list. *)
Theorem create_simple_sample_unregistered_staining
    sample_id em fx (stainings : list string) x w :
  x ∈ stainings →
  cid SpecimenStainsCode x = None →
  ∃ cls y,
    create_simple_sample sample_id em fx (Some stainings) w =
      (Raises (UnknownCodeError cls y), w) ∧
    cid cls y = None ∧
    (∀ m, em = Some m → cid SpecimenEmbeddingMediaCode m = None →
       cls = SpecimenEmbeddingMediaCode ∧ y = m) ∧
    (registered SpecimenEmbeddingMediaCode em →
     ∀ m, fx = Some m → cid SpecimenFixativesCode m = None →
       cls = SpecimenFixativesCode ∧ y = m) ∧
    (registered SpecimenEmbeddingMediaCode em →
     registered SpecimenFixativesCode fx →
     cid SpecimenPreparationProcedureCode "Staining" = None →
     cls = SpecimenPreparationProcedureCode ∧ y = "Staining") ∧
    (registered SpecimenEmbeddingMediaCode em →
     registered SpecimenFixativesCode fx →
     is_Some (cid SpecimenPreparationProcedureCode "Staining") →
     cls = SpecimenStainsCode ∧
     ∃ pre post,
       stainings = pre ++ y :: post ∧
       Forall (λ z, is_Some (cid SpecimenStainsCode z)) pre).
Proof.
  intros Hin Hx.
  assert (Hem : registered SpecimenEmbeddingMediaCode em ∨
                ∃ m, em = Some m ∧ cid SpecimenEmbeddingMediaCode m = None).
  { destruct em as [m|]; [|by left]. simpl.
    destruct (cid SpecimenEmbeddingMediaCode m) as [c|] eqn:Hm;
      [left; by eexists | right; by exists m]. }
  destruct Hem as [Hem | (m & -> & Hm)]; last first.
  { exists SpecimenEmbeddingMediaCode, m. split_and!; [|done|..].
    - apply mbind_raises. by apply optional_code_raises.
    - by intros m' [= <-] _.
    - by intros ?%registered_not_None.
    - by intros ?%registered_not_None.
    - by intros ?%registered_not_None. }
  assert (Hfx : registered SpecimenFixativesCode fx ∨
                ∃ m, fx = Some m ∧ cid SpecimenFixativesCode m = None).
  { destruct fx as [m|]; [|by left]. simpl.
    destruct (cid SpecimenFixativesCode m) as [c|] eqn:Hm;
      [left; by eexists | right; by exists m]. }
  destruct Hfx as [Hfx | (m & -> & Hm)]; last first.
  { exists SpecimenFixativesCode, m. split_and!; [|done|..].
    - unfold create_simple_sample.
      erewrite mbind_returns; [|by apply optional_code_returns].
      apply mbind_raises. by apply optional_code_raises.
    - intros m' -> Hm'. by destruct (registered_not_None _ _ Hem Hm').
    - by intros _ m' [= <-] _.
    - by intros _ ?%registered_not_None.
    - by intros _ ?%registered_not_None. }
  destruct (cid SpecimenPreparationProcedureCode "Staining")
    as [pt|] eqn:Hpt; last first.
  { exists SpecimenPreparationProcedureCode, "Staining".
    split_and!; [|done|..].
    - unfold create_simple_sample.
      erewrite mbind_returns; [|by apply optional_code_returns].
      erewrite mbind_returns; [|by apply optional_code_returns].
      apply mbind_raises, mbind_raises. by rewrite concept_code_run, Hpt.
    - intros m' -> Hm'. by destruct (registered_not_None _ _ Hem Hm').
    - intros _ m' -> Hm'. by destruct (registered_not_None _ _ Hfx Hm').
    - done.
    - by intros _ _ [??]. }
  destruct (first_unregistered SpecimenStainsCode stainings)
    as [[codes Hall] | (pre & y & post & -> & Hpre & Hy)].
  { apply list_elem_of_lookup in Hin as [i Hi].
    destruct (Forall2_lookup_l _ _ _ _ _ Hall Hi) as (c & _ & Hc).
    congruence. }
  exists SpecimenStainsCode, y. split_and!; [|done|..].
  - by eapply create_simple_sample_raises_staining.
  - intros m' -> Hm'. by destruct (registered_not_None _ _ Hem Hm').
  - intros _ m' -> Hm'. by destruct (registered_not_None _ _ Hfx Hm').
  - done.
  - eauto.
Qed.

(** C3: for a non-empty list of registered staining strings, the step that
    [create_simple_sample] assembles holds the codes the strings resolve
    to, one per string and in the order of the list; and a step is
    assembled whenever the embedding medium and the fixative resolve. *)
Theorem create_simple_sample_staining_order
    sample_id em fx (stainings : list string) (codes : list Code) w :
  stainings ≠ [] →
  Forall2 (λ x code, cid SpecimenStainsCode x = Some code) stainings codes →
  (∀ d w',
     create_simple_sample sample_id em fx (Some stainings) w
       = (Returns d, w') →
     ∃ step,
       preparation_steps d = [step] ∧
       substances (processing_procedure step) = codes) ∧
  (registered SpecimenEmbeddingMediaCode em →
   registered SpecimenFixativesCode fx →
   is_Some (cid SpecimenPreparationProcedureCode "Staining") →
   ∃ d w',
     create_simple_sample sample_id em fx (Some stainings) w
       = (Returns d, w')).
Proof.
  intros _ Hcodes. split.
  - intros d w' Hrun.
    apply create_simple_sample_inv in Hrun
      as (_ & _ & _ & _ & _ & pt & codes' & _ & Hcodes' & Hsteps).
    exists (staining_step sample_id em fx pt codes').
    unfold preparation_steps. rewrite Hsteps. split; [done|]. simpl.
    clear Hsteps. revert codes' Hcodes'.
    induction Hcodes as [|x c xs cs Hx _ IH]; intros codes' Hcodes';
      inversion Hcodes' as [|x' c' xs' cs' Hx' Hrest]; simplify_eq; [done|].
    f_equal. by apply IH.
  - intros Hem Hfx [pt Hpt]. eexists _, _.
    by apply create_simple_sample_stained.
Qed.

(** C6: in every Specimen Description that [create_simple_sample] returns,
    each Preparation Step carries the specimen identifier of the
    description and has the code registered for the procedure "Staining"
    as its processing type; with stainings supplied there is exactly one
    such step. *)
Theorem create_simple_sample_step_identity
    sample_id em fx stainings w d w' :
  create_simple_sample sample_id em fx stainings w = (Returns d, w') →
  (∀ step, step ∈ preparation_steps d →
     step_specimen_id step = specimen_id d ∧
     cid SpecimenPreparationProcedureCode "Staining"
       = Some (processing_type step)) ∧
  (is_Some stainings → ∃ step, preparation_steps d = [step]).
Proof.
  intros Hrun.
  apply create_simple_sample_inv in Hrun
    as (_ & _ & _ & Hid & _ & Hsteps).
  unfold preparation_steps. destruct stainings as [xs|].
  - destruct Hsteps as (pt & codes & Hpt & _ & ->). simpl. split.
    + intros step ->%list_elem_of_singleton. by rewrite Hid.
    + eauto.
  - rewrite Hsteps. simpl. split.
    + by intros step ?%not_elem_of_nil.
    + by intros [??].
Qed.

(** ** create_simple_sample: the specimen UID and identifier *)

(** C4 (as amended): a call of [create_simple_sample] that returns a
    Specimen Description has called the UID generator exactly once: the
    generator is left in the state after one call from where it started,
    the trace of generated UIDs grew by one entry, and that entry is stored
    as it is as the specimen UID. The UID does not depend on the specimen
    identifier: the same call with any other identifier stores the same
    UID. A call that raises has not called the generator. *)
Theorem create_simple_sample_uid_once sample_id em fx stainings w :
  (∀ d w',
     create_simple_sample sample_id em fx stainings w = (Returns d, w') →
     uid_generator (gen_state w) = (specimen_uid d, gen_state w') ∧
     generated w' = generated w ++ [specimen_uid d] ∧
     ∀ other_id, ∃ d',
       create_simple_sample other_id em fx stainings w = (Returns d', w') ∧
       specimen_uid d' = specimen_uid d) ∧
  (∀ e w',
     create_simple_sample sample_id em fx stainings w = (Raises e, w') →
     gen_state w' = gen_state w ∧ generated w' = generated w).
Proof.
  split.
  - intros d w' Hrun.
    apply create_simple_sample_inv in Hrun
      as (Hem & Hfx & -> & _ & Huid & Hsteps).
    rewrite Huid. split_and!.
    + unfold next_uid, after_call. simpl.
      by destruct (uid_generator (gen_state w)).
    + done.
    + intros other_id. destruct stainings as [xs|].
      * destruct Hsteps as (pt & codes & Hpt & Hcodes & _).
        eexists. split; [by eapply create_simple_sample_stained|done].
      * eexists. split; [by apply create_simple_sample_absent|done].
  - intros e w' Hrun.
    by apply create_simple_sample_raises_world in Hrun as ->.
Qed.

(** C9 (as amended): an empty identifier is accepted and stored; there is
    no check of it. [create_simple_specimen_module] with the empty
    container identifier returns, for every list of samples, a record whose
    container identifier is the empty string; [create_simple_sample] with
    the empty specimen identifier returns whenever the same call with some
    identifier returns, and the description it returns has the empty string
    as specimen identifier. *)
Theorem empty_identifier_is_accepted :
  (∀ samples,
     create_simple_specimen_module "" samples
       !! "ContainerIdentifier" = Some (Str "")) ∧
  (∀ sample_id em fx stainings w d w',
     create_simple_sample sample_id em fx stainings w = (Returns d, w') →
     ∃ d0,
       create_simple_sample "" em fx stainings w = (Returns d0, w') ∧
       specimen_id d0 = "").
Proof.
  split.
  - intros samples. unfold create_simple_specimen_module, setattr.
    by simplify_map_eq.
  - intros sample_id em fx stainings w d w' Hrun.
    apply create_simple_sample_inv in Hrun
      as (Hem & Hfx & -> & Hid & _ & Hsteps).
    destruct stainings as [xs|].
    + destruct Hsteps as (pt & codes & Hpt & Hcodes & _).
      eexists. split; [by eapply create_simple_sample_stained|done].
    + eexists. split; [by apply create_simple_sample_absent|done].
Qed.

(** C10: the embedding medium and the fixative are resolved before the
    stainings are looked at. With the stainings absent, an unregistered
    embedding medium raises the resolution error for it, an unregistered
    fixative raises the resolution error for it once the embedding medium
    has resolved, and an unregistered fixative makes the call raise in any
    case; the generator is not called. *)
Theorem create_simple_sample_resolves_before_gate sample_id em fx m w :
  (em = Some m → cid SpecimenEmbeddingMediaCode m = None →
   create_simple_sample sample_id em fx None w =
     (Raises (UnknownCodeError SpecimenEmbeddingMediaCode m), w)) ∧
  (registered SpecimenEmbeddingMediaCode em →
   fx = Some m → cid SpecimenFixativesCode m = None →
   create_simple_sample sample_id em fx None w =
     (Raises (UnknownCodeError SpecimenFixativesCode m), w)) ∧
  (fx = Some m → cid SpecimenFixativesCode m = None →
   ∃ e, create_simple_sample sample_id em fx None w = (Raises e, w)).
Proof.
  assert (Hfix : registered SpecimenEmbeddingMediaCode em →
    cid SpecimenFixativesCode m = None →
    create_simple_sample sample_id em (Some m) None w =
      (Raises (UnknownCodeError SpecimenFixativesCode m), w)).
  { intros Hem Hm. unfold create_simple_sample.
    erewrite mbind_returns; [|by apply optional_code_returns].
    apply mbind_raises. by apply optional_code_raises. }
  assert (Hemb : ∀ m', cid SpecimenEmbeddingMediaCode m' = None →
    create_simple_sample sample_id (Some m') fx None w =
      (Raises (UnknownCodeError SpecimenEmbeddingMediaCode m'), w)).
  { intros m' Hm'. apply mbind_raises. by apply optional_code_raises. }
  split_and!.
  - intros -> Hm. by apply Hemb.
  - intros Hem -> Hm. by apply Hfix.
  - intros -> Hm. destruct em as [m'|];
      [destruct (cid SpecimenEmbeddingMediaCode m') as [c|] eqn:Hm'|].
    + eexists. apply Hfix; [|done]. simpl. rewrite Hm'. eauto.
    + eexists. by apply Hemb.
    + eexists. by apply Hfix.
Qed.

(** ** create_simple_specimen_module *)

(** C5: the specimen description sequence of the container record is the
    list of samples it was given: for [N] Specimen Descriptions it has [N]
    items, and its item at every index is the description at that index
    of the input. *)
Theorem create_simple_specimen_module_samples
    slide_id (descriptions : list SpecimenDescription) :
  ∃ items,
    create_simple_specimen_module slide_id (Specimen <$> descriptions)
      !! "SpecimenDescriptionSequence" = Some (DicomSequence items) ∧
    items = Specimen <$> descriptions ∧
    length items = length descriptions ∧
    ∀ i : nat, items !! i = Specimen <$> descriptions !! i.
Proof.
  exists (Specimen <$> descriptions). split_and!.
  - unfold create_simple_specimen_module, setattr. by simplify_map_eq.
  - done.
  - by rewrite length_fmap.
  - intros i. by rewrite list_lookup_fmap.
Qed.

(** ** create_simple_sample: outcomes *)

(** X1: [create_simple_sample] returns a description exactly when every
    string it is given is registered: the embedding medium and the
    fixative, if supplied, and, when a stainings list is supplied, the
    procedure "Staining" and every string of the list. *)
Theorem create_simple_sample_returns_iff sample_id em fx stainings w :
  (∃ d w', create_simple_sample sample_id em fx stainings w = (Returns d, w'))
  ↔
  registered SpecimenEmbeddingMediaCode em ∧
  registered SpecimenFixativesCode fx ∧
  match stainings with
  | Some xs =>
      is_Some (cid SpecimenPreparationProcedureCode "Staining") ∧
      Forall (λ x, is_Some (cid SpecimenStainsCode x)) xs
  | None => True
  end.
Proof.
  split.
  - intros (d & w' & Hrun).
    apply create_simple_sample_inv in Hrun
      as (Hem & Hfx & _ & _ & _ & Hsteps).
    split_and!; [done..|]. destruct stainings as [xs|]; [|done].
    destruct Hsteps as (pt & codes & Hpt & Hcodes & _). split; [eauto|].
    clear -Hcodes. induction Hcodes; constructor; eauto.
  - intros (Hem & Hfx & Hst). destruct stainings as [xs|].
    + destruct Hst as [[pt Hpt] Hxs].
      destruct (first_unregistered SpecimenStainsCode xs)
        as [[codes Hall] | (pre & x & post & -> & _ & Hx)].
      * eexists _, _. by eapply create_simple_sample_stained.
      * apply Forall_app in Hxs as [_ Hxs].
        apply Forall_cons in Hxs as [[c Hc] _]. congruence.
    + eexists _, _. by apply create_simple_sample_absent.
Qed.

(** X2: a call of [create_simple_sample] calls the UID generator once or
    not at all: either it returns a description and leaves the world as it
    is after one call of the generator, or it raises and leaves the world
    as it found it. *)
Theorem create_simple_sample_generator_once_or_never
    sample_id em fx stainings w :
  (∃ d, create_simple_sample sample_id em fx stainings w
          = (Returns d, after_call w)) ∨
  (∃ e, create_simple_sample sample_id em fx stainings w = (Raises e, w)).
Proof.
  destruct (create_simple_sample sample_id em fx stainings w)
    as [[d|e] w'] eqn:Hrun.
  - left. exists d.
    by apply create_simple_sample_inv in Hrun as (_ & _ & -> & _).
  - right. exists e.
    by apply create_simple_sample_raises_world in Hrun as ->.
Qed.

(** X3: in a description that [create_simple_sample] returns, every
    Preparation Step holds the code registered for the embedding medium and
    the code registered for the fixative that were supplied: a supplied
    string is never dropped, and an absent one leaves the field empty. *)
Theorem create_simple_sample_step_media sample_id em fx stainings w d w' :
  create_simple_sample sample_id em fx stainings w = (Returns d, w') →
  ∀ step, step ∈ preparation_steps d →
    embedding_medium step = em ≫= cid SpecimenEmbeddingMediaCode ∧
    fixative step = fx ≫= cid SpecimenFixativesCode ∧
    (is_Some (embedding_medium step) ↔ is_Some em) ∧
    (is_Some (fixative step) ↔ is_Some fx).
Proof.
  intros Hrun step Hstep.
  apply create_simple_sample_inv in Hrun
    as (Hem & Hfx & _ & _ & _ & Hsteps).
  unfold preparation_steps in Hstep. destruct stainings as [xs|].
  - destruct Hsteps as (pt & codes & _ & _ & Hsteps).
    rewrite Hsteps in Hstep. apply list_elem_of_singleton in Hstep as ->.
    simpl. split_and!; [done..| |].
    + destruct em as [m|]; simpl in *; [|by split; intros [??]].
      destruct Hem as [c ->]. by split; eauto.
    + destruct fx as [m|]; simpl in *; [|by split; intros [??]].
      destruct Hfx as [c ->]. by split; eauto.
  - rewrite Hsteps in Hstep. by apply not_elem_of_nil in Hstep.
Qed.

(** X4: the order in which [create_simple_sample] reports an unregistered
    string, whatever else it is given: the embedding medium first, then the
    fixative, then the procedure "Staining" and the stainings in list
    order. *)
Theorem create_simple_sample_error_precedence
    sample_id em fx (pre post : list string) m w :
  (cid SpecimenEmbeddingMediaCode m = None →
   ∀ stainings,
     create_simple_sample sample_id (Some m) fx stainings w =
       (Raises (UnknownCodeError SpecimenEmbeddingMediaCode m), w)) ∧
  (registered SpecimenEmbeddingMediaCode em →
   cid SpecimenFixativesCode m = None →
   ∀ stainings,
     create_simple_sample sample_id em (Some m) stainings w =
       (Raises (UnknownCodeError SpecimenFixativesCode m), w)) ∧
  (registered SpecimenEmbeddingMediaCode em →
   registered SpecimenFixativesCode fx →
   cid SpecimenPreparationProcedureCode "Staining" = None →
   ∀ stainings,
     create_simple_sample sample_id em fx (Some stainings) w =
       (Raises (UnknownCodeError SpecimenPreparationProcedureCode "Staining"),
        w)) ∧
  (registered SpecimenEmbeddingMediaCode em →
   registered SpecimenFixativesCode fx →
   is_Some (cid SpecimenPreparationProcedureCode "Staining") →
   Forall (λ x, is_Some (cid SpecimenStainsCode x)) pre →
   cid SpecimenStainsCode m = None →
   create_simple_sample sample_id em fx (Some (pre ++ m :: post)) w =
     (Raises (UnknownCodeError SpecimenStainsCode m), w)).
Proof.
  split_and!.
  - intros Hm stainings. apply mbind_raises. by apply optional_code_raises.
  - intros Hem Hm stainings. unfold create_simple_sample.
    erewrite mbind_returns; [|by apply optional_code_returns].
    apply mbind_raises. by apply optional_code_raises.
  - intros Hem Hfx Hpt stainings. unfold create_simple_sample.
    erewrite mbind_returns; [|by apply optional_code_returns].
    erewrite mbind_returns; [|by apply optional_code_returns].
    apply mbind_raises, mbind_raises. by rewrite concept_code_run, Hpt.
  - intros Hem Hfx [pt Hpt] Hpre Hm. unfold create_simple_sample.
    erewrite mbind_returns; [|by apply optional_code_returns].
    erewrite mbind_returns; [|by apply optional_code_returns].
    apply mbind_raises.
    erewrite mbind_returns; [|by rewrite concept_code_run, Hpt].
    apply mbind_raises. by apply comprehension_raises.
Qed.

(** ** create_wsi_dataset and create_test_base_dataset *)


Lemma create_wsi_dataset_run w :
  create_wsi_dataset w =
  (Returns
     (<["VolumetricProperties" := text "VOLUME"]>
     (<["SpecimenLabelInImage" := text "NO"]>
     (<["BurnedInAnnotation" := text "NO"]>
     (<["DimensionIndexSequence" :=
          Items
            [<["DimensionIndexPointer" := Tag "PlanePositionSlideSequence"]>
               (<["DimensionOrganizationUID" :=
                    text (next_uid (after_calls 3 w))]> ∅)]]>
     (<["DimensionOrganizationSequence" :=
          Items
            [<["DimensionOrganizationUID" :=
                 text (next_uid (after_calls 3 w))]> ∅]]>
     (<["SOPClassUID" := text "1.2.840.10008.5.1.4.1.1.77.1.6"]>
     (<["Modality" := text "SM"]>
     (<["FrameOfReferenceUID" := text (next_uid (after_calls 2 w))]>
     (<["SeriesInstanceUID" := text (next_uid (after_calls 1 w))]>
     (<["StudyInstanceUID" := text (next_uid w)]> ∅)))))))))),
   after_calls 4 w).
Proof.
  unfold create_wsi_dataset.
  do 4 (erewrite mbind_returns; [|apply call_uid_generator_run]).
  done.
Qed.

Lemma create_test_base_dataset_run w base :
  create_wsi_dataset w = (Returns base, after_calls 4 w) →
  create_test_base_dataset w =
  (Returns
     (update (as_dataset create_generic_optical_path_module)
        (update
           (as_dataset
              (create_simple_specimen_module "slide id"
                 [Specimen
                    (mkSpecimenDescription "sample id"
                       (next_uid (after_calls 4 w)) None)]))
           (update
              (create_device_module (Some "Scanner manufacturer")
                 (Some "Scanner model name") (Some "Scanner serial number")
                 (Some ["Scanner software versions"]))
              base))),
   after_calls 5 w).
Proof.
  intros Hbase. unfold create_test_base_dataset.
  erewrite mbind_returns; [|exact Hbase].
  erewrite mbind_returns; [|by apply create_simple_sample_absent].
  done.
Qed.



(** X7: the updates of [create_test_base_dataset] replace nothing: the
    base dataset, the device module, the specimen module and the optical
    path module have no keyword in common, so every element of each of
    them is an element of the result, which has their nineteen elements. *)
Theorem create_test_base_dataset_modules w :
  ∃ base dataset,
    create_wsi_dataset w = (Returns base, after_calls 4 w) ∧
    create_test_base_dataset w = (Returns dataset, after_calls 5 w) ∧
    base ⊆ dataset ∧
    create_device_module (Some "Scanner manufacturer")
      (Some "Scanner model name") (Some "Scanner serial number")
      (Some ["Scanner software versions"]) ⊆ dataset ∧
    as_dataset
      (create_simple_specimen_module "slide id"
         [Specimen
            (mkSpecimenDescription "sample id"
               (next_uid (after_calls 4 w)) None)]) ⊆ dataset ∧
    as_dataset create_generic_optical_path_module ⊆ dataset ∧
    size base = 10%nat ∧
    size dataset = 19%nat.
Proof.
  eexists _, _. split; [apply create_wsi_dataset_run|].
  split; [apply create_test_base_dataset_run, create_wsi_dataset_run|].
  unfold update. split_and!.
  - do 3 (etrans; [|apply map_union_subseteq_r, map_disjoint_dom_2;
                     refine (bool_decide_unpack _ _); vm_compute; exact I]).
    done.
  - do 2 (etrans; [|apply map_union_subseteq_r, map_disjoint_dom_2;
                     refine (bool_decide_unpack _ _); vm_compute; exact I]).
    apply map_union_subseteq_l.
  - etrans; [|apply map_union_subseteq_r, map_disjoint_dom_2;
               refine (bool_decide_unpack _ _); vm_compute; exact I].
    apply map_union_subseteq_l.
  - apply map_union_subseteq_l.
  - vm_compute. reflexivity.
  - vm_compute. reflexivity.
Qed.

End Builders.

(** ** get_image_type *)

(** C7: [get_image_type] returns, for every flavor and level index, a list
    of four elements whose third element is the flavor and whose fourth
    element is "NONE" exactly when the flavor is "VOLUME" and the level
    index is 0, and "RESAMPLED" in every other case. *)
Theorem get_image_type_flavor_and_resampling image_flavor level_index :
  length (get_image_type image_flavor level_index) = 4%nat ∧
  get_image_type image_flavor level_index !! 2%nat = Some image_flavor ∧
  (get_image_type image_flavor level_index !! 3%nat = Some "NONE" ↔
     image_flavor = "VOLUME" ∧ level_index = 0) ∧
  (¬ (image_flavor = "VOLUME" ∧ level_index = 0) →
     get_image_type image_flavor level_index !! 3%nat = Some "RESAMPLED").
Proof.
  unfold get_image_type. split_and!; [done..| |]; simpl.
  - destruct (String.eqb_spec image_flavor "VOLUME") as [->|Hflavor];
      destruct (Z.eqb_spec level_index 0) as [->|Hlevel]; simpl;
      split; try done; intros [??]; done.
  - intros Hnot.
    destruct (String.eqb_spec image_flavor "VOLUME") as [->|Hflavor];
      destruct (Z.eqb_spec level_index 0) as [->|Hlevel]; simpl;
      try done. by destruct Hnot.
Qed.

(** C8: the first element [get_image_type] returns is the string "ORGINAL",
    which is not the keyword "ORIGINAL"; the second element is "PRIMARY".
    So no result equals the list that starts with "ORIGINAL", also at flavor
    "VOLUME" and level 0. *)
Theorem get_image_type_first_element image_flavor level_index :
  get_image_type "VOLUME" 0 = ["ORGINAL"; "PRIMARY"; "VOLUME"; "NONE"] ∧
  get_image_type image_flavor level_index !! 0%nat = Some "ORGINAL" ∧
  get_image_type image_flavor level_index !! 1%nat = Some "PRIMARY" ∧
  get_image_type image_flavor level_index !! 0%nat ≠ Some "ORIGINAL".
Proof. split_and!; done. Qed.

(** ** create_device_module and the container record *)

Lemma split_backslash_cons value :
  ∃ part parts, split_backslash value = part :: parts.
Proof.
  destruct value as [|c rest]; simpl; [eauto|].
  destruct (Ascii.eqb c backslash); [eauto|].
  destruct (split_backslash rest); eauto.
Qed.

Lemma join_split_backslash value :
  join_backslash (split_backslash value) = value.
Proof.
  induction value as [|c rest IH]; [done|]. simpl.
  destruct (split_backslash_cons rest) as (part & parts & Hsplit).
  rewrite Hsplit in IH |- *.
  destruct (Ascii.eqb_spec c backslash) as [->|_].
  - change (join_backslash (EmptyString :: part :: parts))
      with (String backslash (join_backslash (part :: parts))).
    by rewrite IH.
  - rewrite <-IH. by destruct parts.
Qed.

Lemma split_backslash_length value :
  has_backslash value = true → (1 < length (split_backslash value))%nat.
Proof.
  induction value as [|c rest IH]; [done|]. simpl.
  destruct (split_backslash_cons rest) as (part & parts & Hsplit).
  destruct (Ascii.eqb c backslash); simpl.
  - intros _. rewrite Hsplit. simpl. lia.
  - intros Hrest. specialize (IH Hrest). by rewrite Hsplit in IH |- *.
Qed.

Lemma assign_text_inj value value' :
  assign_text value = assign_text value' → value = value'.
Proof.
  unfold assign_text.
  destruct (has_backslash value), (has_backslash value'); intros Heq;
    simplify_eq; [|done].
  by rewrite <-(join_split_backslash value), <-(join_split_backslash value'),
    Heq.
Qed.

(** X8: the dataset [create_device_module] returns holds exactly the
    arguments that are given, each under its keyword: an argument that is
    [None] leaves no element behind, no other keyword is set, and with no
    argument given the dataset is empty. A text argument without a
    backslash is stored as it is; one with a backslash is stored as the
    list of its backslash-separated parts, at least two, which joined by
    backslashes give the argument back. The list of software versions is
    stored as it is. *)
Theorem create_device_module_elements
    manufacturer model_name serial_number software_versions :
  create_device_module manufacturer model_name serial_number
    software_versions !! "Manufacturer" = assign <$> manufacturer ∧
  create_device_module manufacturer model_name serial_number
    software_versions !! "ManufacturerModelName" = assign <$> model_name ∧
  create_device_module manufacturer model_name serial_number
    software_versions !! "DeviceSerialNumber" = assign <$> serial_number ∧
  create_device_module manufacturer model_name serial_number
    software_versions !! "SoftwareVersions" = Strings <$> software_versions ∧
  (∀ keyword : string,
     keyword ∉ ["Manufacturer"; "ManufacturerModelName";
                "DeviceSerialNumber"; "SoftwareVersions"] →
     create_device_module manufacturer model_name serial_number
       software_versions !! keyword = None) ∧
  create_device_module None None None None = ∅ ∧
  (∀ value, has_backslash value = false → assign value = text value) ∧
  (∀ value, has_backslash value = true →
     ∃ parts,
       assign value = Plain (MultiValue parts) ∧
       (1 < length parts)%nat ∧
       join_backslash parts = value).
Proof.
  split_and!.
  1-4: by destruct manufacturer, model_name, serial_number, software_versions.
  - intros keyword Hkeyword.
    rewrite !not_elem_of_cons in Hkeyword.
    destruct Hkeyword as (? & ? & ? & ? & _).
    destruct manufacturer, model_name, serial_number, software_versions;
      unfold create_device_module; simpl;
      rewrite ?lookup_insert_ne by done; apply lookup_empty.
  - done.
  - intros value Hvalue. unfold assign, assign_text. by rewrite Hvalue.
  - intros value Hvalue. exists (split_backslash value). split_and!.
    + unfold assign, assign_text. by rewrite Hvalue.
    + by apply split_backslash_length.
    + apply join_split_backslash.
Qed.

(** X9: the container record has the same four elements for every input:
    the container identifier, the container type, the container component
    and the specimen description sequence. The type and the component do
    not depend on the identifier or on the samples, and an empty list of
    samples is stored as an empty sequence, not left out. *)
Theorem create_simple_specimen_module_attributes slide_id samples :
  dom (create_simple_specimen_module slide_id samples) =
    {[ "ContainerIdentifier"; "ContainerTypeCodeSequence";
       "ContainerComponentSequence"; "SpecimenDescriptionSequence" ]} ∧
  create_simple_specimen_module slide_id samples
    !! "ContainerTypeCodeSequence" =
  create_simple_specimen_module "" [] !! "ContainerTypeCodeSequence" ∧
  create_simple_specimen_module slide_id samples
    !! "ContainerComponentSequence" =
  create_simple_specimen_module "" [] !! "ContainerComponentSequence" ∧
  create_simple_specimen_module slide_id []
    !! "SpecimenDescriptionSequence" = Some (DicomSequence []).
Proof.
  split_and!.
  - vm_compute. reflexivity.
  - reflexivity.
  - reflexivity.
  - reflexivity.
Qed.

(** X10: the container record determines its inputs: two calls of
    [create_simple_specimen_module] return the same record exactly when
    they were given the same container identifier and the same list of
    samples. *)
Theorem create_simple_specimen_module_inj slide_id samples slide_id' samples' :
  create_simple_specimen_module slide_id samples =
  create_simple_specimen_module slide_id' samples'
  ↔ slide_id = slide_id' ∧ samples = samples'.
Proof.
  split; [|by intros [-> ->]].
  intros Heq.
  assert (Hid : create_simple_specimen_module slide_id samples
                  !! "ContainerIdentifier" =
                create_simple_specimen_module slide_id' samples'
                  !! "ContainerIdentifier") by (by rewrite Heq).
  assert (Hseq : create_simple_specimen_module slide_id samples
                   !! "SpecimenDescriptionSequence" =
                 create_simple_specimen_module slide_id' samples'
                   !! "SpecimenDescriptionSequence") by (by rewrite Heq).
  unfold create_simple_specimen_module, setattr in Hid, Hseq.
  simplify_map_eq. split; [|done]. by apply assign_text_inj.
Qed.

(** ** Concrete runs *)

(** The builders run on the sample vocabulary and the counting generator:
    the theorems above at concrete calls, and the calls at which C1, C2,
    C4 and C9 fail as they were stated. *)

Lemma create_simple_sample_absent_stainings_no_step_witness :
  create_simple_sample sample_cid nat counting_uid_generator "sample id"
    (Some "Paraffin wax") (Some "Neutral Buffered Formalin") None
    initial_world =
  (Returns (mkSpecimenDescription "sample id" "2.25.0" None),
   mkWorld 1%nat ["2.25.0"]) ∧
  preparation_steps (mkSpecimenDescription "sample id" "2.25.0" None) = [] ∧
  ∃ d w',
    create_simple_sample sample_cid nat counting_uid_generator "sample id"
      (Some "Paraffin wax") (Some "Neutral Buffered Formalin") None
      initial_world = (Returns d, w').
Proof.
  assert (Hrun :
    create_simple_sample sample_cid nat counting_uid_generator "sample id"
      (Some "Paraffin wax") (Some "Neutral Buffered Formalin") None
      initial_world =
    (Returns (mkSpecimenDescription "sample id" "2.25.0" None),
     mkWorld 1%nat ["2.25.0"])) by reflexivity.
  destruct (create_simple_sample_absent_stainings_no_step sample_cid nat
              counting_uid_generator "sample id" (Some "Paraffin wax")
              (Some "Neutral Buffered Formalin") initial_world)
    as [Hnone Hreturns].
  split; [exact Hrun|]. split; [exact (proj2 (Hnone _ _ Hrun))|].
  apply Hreturns; eexists; reflexivity.
Defined.

(** With an empty list the staining branch is taken: the description that
    comes back has a Preparation Step, with no staining agent in it. *)
Lemma create_simple_sample_empty_stainings_counterexample :
  create_simple_sample sample_cid nat counting_uid_generator "S1"
    None None (Some []) initial_world =
  (Returns
     (mkSpecimenDescription "S1" "2.25.0"
        (Some [mkSpecimenPreparationStep "S1"
                 (mkCode "127790008" "SCT" "Staining")
                 (mkSpecimenStaining []) None None])),
   mkWorld 1%nat ["2.25.0"]) ∧
  ¬ ∃ d w',
      create_simple_sample sample_cid nat counting_uid_generator "S1"
        None None (Some []) initial_world = (Returns d, w') ∧
      preparation_steps d = [].
Proof.
  split; [reflexivity|].
  intros (d & w' & Hrun & Hnone).
  vm_compute in Hrun. injection Hrun as <- _. discriminate Hnone.
Qed.

Lemma create_simple_sample_unregistered_staining_witness :
  "Unobtainium" ∈ ["hematoxylin stain"; "Unobtainium"] ∧
  sample_cid SpecimenStainsCode "Unobtainium" = None ∧
  ∃ cls y,
    create_simple_sample sample_cid nat counting_uid_generator "S1"
      None None (Some ["hematoxylin stain"; "Unobtainium"]) initial_world =
      (Raises (UnknownCodeError cls y), initial_world) ∧
    sample_cid cls y = None ∧
    cls = SpecimenStainsCode ∧
    ∃ pre post,
      ["hematoxylin stain"; "Unobtainium"] = pre ++ y :: post ∧
      Forall (λ z, is_Some (sample_cid SpecimenStainsCode z)) pre.
Proof.
  assert (Hin : "Unobtainium" ∈ ["hematoxylin stain"; "Unobtainium"])
    by (apply list_elem_of_further, list_elem_of_here).
  split; [exact Hin|]. split; [reflexivity|].
  destruct (create_simple_sample_unregistered_staining sample_cid nat
              counting_uid_generator "S1" None None _ "Unobtainium"
              initial_world Hin eq_refl)
    as (cls & y & Hrun & Hy & _ & _ & _ & Hstains).
  exists cls, y. split; [exact Hrun|]. split; [exact Hy|].
  apply Hstains; [exact I | exact I | eexists; reflexivity].
Defined.

(** An unregistered embedding medium together with an unregistered
    staining: the error names the embedding medium, which is no string of
    the stainings list. *)
Lemma create_simple_sample_unregistered_staining_counterexample :
  "Unobtainium" ∈ ["Unobtainium"] ∧
  sample_cid SpecimenStainsCode "Unobtainium" = None ∧
  create_simple_sample sample_cid nat counting_uid_generator "S1"
    (Some "Beeswax") None (Some ["Unobtainium"]) initial_world =
  (Raises (UnknownCodeError SpecimenEmbeddingMediaCode "Beeswax"),
   initial_world) ∧
  ∀ cls y w',
    create_simple_sample sample_cid nat counting_uid_generator "S1"
      (Some "Beeswax") None (Some ["Unobtainium"]) initial_world =
    (Raises (UnknownCodeError cls y), w') →
    y ∉ ["Unobtainium"].
Proof.
  split_and!.
  - apply list_elem_of_here.
  - reflexivity.
  - reflexivity.
  - intros cls y w' Hrun. vm_compute in Hrun. injection Hrun as <- <- _.
    intros Hin%list_elem_of_singleton. discriminate Hin.
Qed.

Lemma create_simple_sample_staining_order_witness :
  ["hematoxylin stain"; "water soluble eosin stain"] ≠ [] ∧
  Forall2 (λ x code, sample_cid SpecimenStainsCode x = Some code)
    ["hematoxylin stain"; "water soluble eosin stain"]
    [mkCode "12710003" "SCT" "hematoxylin stain";
     mkCode "36879007" "SCT" "water soluble eosin stain"] ∧
  (∀ d w',
     create_simple_sample sample_cid nat counting_uid_generator "S1"
       (Some "Paraffin wax") None
       (Some ["hematoxylin stain"; "water soluble eosin stain"])
       initial_world = (Returns d, w') →
     ∃ step,
       preparation_steps d = [step] ∧
       substances (processing_procedure step) =
         [mkCode "12710003" "SCT" "hematoxylin stain";
          mkCode "36879007" "SCT" "water soluble eosin stain"]) ∧
  (registered sample_cid SpecimenEmbeddingMediaCode (Some "Paraffin wax") →
   registered sample_cid SpecimenFixativesCode None →
   is_Some (sample_cid SpecimenPreparationProcedureCode "Staining") →
   ∃ d w',
     create_simple_sample sample_cid nat counting_uid_generator "S1"
       (Some "Paraffin wax") None
       (Some ["hematoxylin stain"; "water soluble eosin stain"])
       initial_world = (Returns d, w')).
Proof.
  assert (Hne : ["hematoxylin stain"; "water soluble eosin stain"] ≠ [])
    by discriminate.
  assert (Hcodes :
    Forall2 (λ x code, sample_cid SpecimenStainsCode x = Some code)
      ["hematoxylin stain"; "water soluble eosin stain"]
      [mkCode "12710003" "SCT" "hematoxylin stain";
       mkCode "36879007" "SCT" "water soluble eosin stain"])
    by (repeat constructor).
  split; [exact Hne|]. split; [exact Hcodes|].
  exact (create_simple_sample_staining_order sample_cid nat
           counting_uid_generator "S1" (Some "Paraffin wax") None _ _
           initial_world Hne Hcodes).
Defined.

Lemma create_simple_sample_step_identity_witness :
  create_simple_sample sample_cid nat counting_uid_generator "S1"
    None (Some "Neutral Buffered Formalin") (Some ["hematoxylin stain"])
    initial_world =
  (Returns
     (mkSpecimenDescription "S1" "2.25.0"
        (Some [mkSpecimenPreparationStep "S1"
                 (mkCode "127790008" "SCT" "Staining")
                 (mkSpecimenStaining
                    [mkCode "12710003" "SCT" "hematoxylin stain"])
                 None
                 (Some (mkCode "434162003" "SCT"
                          "Neutral Buffered Formalin"))])),
   mkWorld 1%nat ["2.25.0"]) ∧
  ∃ step,
    preparation_steps
      (mkSpecimenDescription "S1" "2.25.0"
         (Some [mkSpecimenPreparationStep "S1"
                  (mkCode "127790008" "SCT" "Staining")
                  (mkSpecimenStaining
                     [mkCode "12710003" "SCT" "hematoxylin stain"])
                  None
                  (Some (mkCode "434162003" "SCT"
                           "Neutral Buffered Formalin"))])) = [step] ∧
    step_specimen_id step = "S1" ∧
    sample_cid SpecimenPreparationProcedureCode "Staining" =
      Some (processing_type step).
Proof.
  assert (Hrun :
    create_simple_sample sample_cid nat counting_uid_generator "S1"
      None (Some "Neutral Buffered Formalin") (Some ["hematoxylin stain"])
      initial_world =
    (Returns
       (mkSpecimenDescription "S1" "2.25.0"
          (Some [mkSpecimenPreparationStep "S1"
                   (mkCode "127790008" "SCT" "Staining")
                   (mkSpecimenStaining
                      [mkCode "12710003" "SCT" "hematoxylin stain"])
                   None
                   (Some (mkCode "434162003" "SCT"
                            "Neutral Buffered Formalin"))])),
     mkWorld 1%nat ["2.25.0"])) by reflexivity.
  split; [exact Hrun|].
  destruct (create_simple_sample_step_identity sample_cid nat
              counting_uid_generator _ _ _ _ _ _ _ Hrun) as [Hsteps Hone].
  destruct Hone as [step Hstep]; [eexists; reflexivity|].
  exists step. split; [exact Hstep|].
  apply Hsteps. rewrite Hstep. apply list_elem_of_here.
Defined.

Lemma create_simple_sample_uid_once_witness :
  create_simple_sample sample_cid nat counting_uid_generator "S1"
    None None (Some ["hematoxylin stain"]) (mkWorld 7%nat ["2.25.6"]) =
  (Returns
     (mkSpecimenDescription "S1" "2.25.7"
        (Some [mkSpecimenPreparationStep "S1"
                 (mkCode "127790008" "SCT" "Staining")
                 (mkSpecimenStaining
                    [mkCode "12710003" "SCT" "hematoxylin stain"])
                 None None])),
   mkWorld 8%nat ["2.25.6"; "2.25.7"]) ∧
  counting_uid_generator 7 = ("2.25.7", 8%nat) ∧
  ∀ other_id, ∃ d',
    create_simple_sample sample_cid nat counting_uid_generator other_id
      None None (Some ["hematoxylin stain"]) (mkWorld 7%nat ["2.25.6"]) =
      (Returns d', mkWorld 8%nat ["2.25.6"; "2.25.7"]) ∧
    specimen_uid d' = "2.25.7".
Proof.
  assert (Hrun :
    create_simple_sample sample_cid nat counting_uid_generator "S1"
      None None (Some ["hematoxylin stain"]) (mkWorld 7%nat ["2.25.6"]) =
    (Returns
       (mkSpecimenDescription "S1" "2.25.7"
          (Some [mkSpecimenPreparationStep "S1"
                   (mkCode "127790008" "SCT" "Staining")
                   (mkSpecimenStaining
                      [mkCode "12710003" "SCT" "hematoxylin stain"])
                   None None])),
     mkWorld 8%nat ["2.25.6"; "2.25.7"])) by reflexivity.
  split; [exact Hrun|].
  destruct (proj1 (create_simple_sample_uid_once sample_cid nat
                     counting_uid_generator "S1" None None
                     (Some ["hematoxylin stain"])
                     (mkWorld 7%nat ["2.25.6"])) _ _ Hrun)
    as (Hcall & _ & Hother).
  split; [exact Hcall | exact Hother].
Defined.

(** A call that raises: the generator is not called, so the trace of
    generated UIDs has not grown by an entry. *)
Lemma create_simple_sample_uid_once_counterexample :
  create_simple_sample sample_cid nat counting_uid_generator "S1"
    None None (Some ["Unobtainium"]) initial_world =
  (Raises (UnknownCodeError SpecimenStainsCode "Unobtainium"),
   initial_world) ∧
  ¬ ∃ r w' uid,
      create_simple_sample sample_cid nat counting_uid_generator "S1"
        None None (Some ["Unobtainium"]) initial_world = (r, w') ∧
      generated w' = generated initial_world ++ [uid].
Proof.
  split; [reflexivity|].
  intros (r & w' & uid & Hrun & Hgenerated).
  vm_compute in Hrun. injection Hrun as _ <-. discriminate Hgenerated.
Qed.

(** An empty container identifier and an empty specimen identifier: both
    builders return a record that holds the empty string. *)
Lemma empty_identifier_counterexample :
  create_simple_specimen_module "" [] !! "ContainerIdentifier" =
    Some (Str "") ∧
  create_simple_sample sample_cid nat counting_uid_generator ""
    None None None initial_world =
  (Returns (mkSpecimenDescription "" "2.25.0" None),
   mkWorld 1%nat ["2.25.0"]).
Proof. split; reflexivity. Qed.

Lemma empty_identifier_is_accepted_witness :
  create_simple_sample sample_cid nat counting_uid_generator "sample id"
    None None None initial_world =
  (Returns (mkSpecimenDescription "sample id" "2.25.0" None),
   mkWorld 1%nat ["2.25.0"]) ∧
  ∃ d0,
    create_simple_sample sample_cid nat counting_uid_generator ""
      None None None initial_world =
      (Returns d0, mkWorld 1%nat ["2.25.0"]) ∧
    specimen_id d0 = "".
Proof.
  assert (Hrun :
    create_simple_sample sample_cid nat counting_uid_generator "sample id"
      None None None initial_world =
    (Returns (mkSpecimenDescription "sample id" "2.25.0" None),
     mkWorld 1%nat ["2.25.0"])) by reflexivity.
  split; [exact Hrun|].
  exact (proj2 (empty_identifier_is_accepted sample_cid nat
                  counting_uid_generator) _ _ _ _ _ _ _ Hrun).
Defined.

Lemma create_simple_sample_resolves_before_gate_witness :
  sample_cid SpecimenFixativesCode "Unobtainium" = None ∧
  create_simple_sample sample_cid nat counting_uid_generator "S1"
    (Some "Paraffin wax") (Some "Unobtainium") None initial_world =
  (Raises (UnknownCodeError SpecimenFixativesCode "Unobtainium"),
   initial_world).
Proof.
  split; [reflexivity|].
  apply (create_simple_sample_resolves_before_gate sample_cid nat
           counting_uid_generator "S1" (Some "Paraffin wax")
           (Some "Unobtainium") "Unobtainium" initial_world).
  - eexists; reflexivity.
  - reflexivity.
  - reflexivity.
Defined.

Lemma create_simple_sample_step_media_witness :
  create_simple_sample sample_cid nat counting_uid_generator "S1"
    (Some "Paraffin wax") None (Some ["hematoxylin stain"]) initial_world =
  (Returns
     (mkSpecimenDescription "S1" "2.25.0"
        (Some [mkSpecimenPreparationStep "S1"
                 (mkCode "127790008" "SCT" "Staining")
                 (mkSpecimenStaining
                    [mkCode "12710003" "SCT" "hematoxylin stain"])
                 (Some (mkCode "311731000" "SCT" "Paraffin wax"))
                 None])),
   mkWorld 1%nat ["2.25.0"]) ∧
  embedding_medium
    (mkSpecimenPreparationStep "S1"
       (mkCode "127790008" "SCT" "Staining")
       (mkSpecimenStaining [mkCode "12710003" "SCT" "hematoxylin stain"])
       (Some (mkCode "311731000" "SCT" "Paraffin wax"))
       None) =
  Some "Paraffin wax" ≫= sample_cid SpecimenEmbeddingMediaCode.
Proof.
  assert (Hrun :
    create_simple_sample sample_cid nat counting_uid_generator "S1"
      (Some "Paraffin wax") None (Some ["hematoxylin stain"]) initial_world =
    (Returns
       (mkSpecimenDescription "S1" "2.25.0"
          (Some [mkSpecimenPreparationStep "S1"
                   (mkCode "127790008" "SCT" "Staining")
                   (mkSpecimenStaining
                      [mkCode "12710003" "SCT" "hematoxylin stain"])
                   (Some (mkCode "311731000" "SCT" "Paraffin wax"))
                   None])),
     mkWorld 1%nat ["2.25.0"])) by reflexivity.
  split; [exact Hrun|].
  refine (proj1 (create_simple_sample_step_media sample_cid nat
                   counting_uid_generator _ _ _ _ _ _ _ Hrun _ _)).
  apply list_elem_of_here.
Defined.
